(** * The chat backend of [src/backend/index.js]

    A shallow embedding of the Express handler and of the start-up
    sequence of the retrieval-augmented chat bot, with the external
    collaborators (completion service, embedding service, vector
    search, text splitter, corpus loader and the Upstash history
    store) as oracles that may throw. *)

From Stdlib Require Import String List Bool ZArith DecimalString.
Import ListNotations.
Local Open Scope string_scope.
Set Warnings "-register-all".

(** ** JavaScript values *)

(** A JavaScript number is an IEEE double.  The program never computes
    with one: it only tests a value for truthiness ([c.text || ""]) and
    turns it into a string (template literals, [Array.prototype.join]);
    the text splitter writes line numbers, which are integers.  Those
    two observations and the integers are the interface. *)
Class Number := {
  num : Type;
  num_truthy : num -> bool;
  num_to_string : num -> string;
  num_of_int : Z -> num
}.

(** ** Errors and outcomes *)

Inductive Service :=
| CompletionService
| EmbeddingService
| HistoryStore
| CorpusLoader.

Inductive Error :=
| TypeError                        (* a property read on undefined or null,
                                      a property written on a primitive *)
| MissingValueError                (* thrown by the memory for a value it
                                      cannot save *)
| ServiceFault (who : Service).    (* thrown by an external collaborator *)

Inductive Outcome (A : Type) :=
| Return (a : A)
| Throw (e : Error).
Arguments Return {A} a.
Arguments Throw {A} e.

Definition is_throw {A} (o : Outcome A) : bool :=
  match o with Throw _ => true | Return _ => false end.

Section Backend.

Context `{Number}.

(** The plain data that [express.json()] parses and that the model
    returns: no functions, no prototypes of its own. *)
Inductive JsVal :=
| VUndefined
| VNull
| VBool (b : bool)
| VNum (n : num)
| VStr (s : string)
| VArr (elems : list JsVal)
| VObj (fields : list (string * JsVal)).

(** JavaScript's [ToBoolean]. *)
Definition truthy (v : JsVal) : bool :=
  match v with
  | VUndefined | VNull => false
  | VBool b => b
  | VNum n => num_truthy n
  | VStr s => negb (s =? "")
  | VArr _ | VObj _ => true
  end.

(** [a || b] *)
Definition js_or (a b : JsVal) : JsVal := if truthy a then a else b.

(** JavaScript's [ToString] on plain data.  An array prints as its
    elements joined by a comma, where [undefined] and [null] elements
    print as nothing; a plain object prints as [[object Object]].
    [String.concat sep] is [join(sep)] on an array of strings. *)
Fixpoint to_string (v : JsVal) : string :=
  match v with
  | VUndefined => "undefined"
  | VNull => "null"
  | VBool true => "true"
  | VBool false => "false"
  | VNum n => num_to_string n
  | VStr s => s
  | VArr elems =>
      String.concat ","
        ((fix elems_to_string (l : list JsVal) : list string :=
            match l with
            | [] => []
            | VUndefined :: rest => "" :: elems_to_string rest
            | VNull :: rest => "" :: elems_to_string rest
            | e :: rest => to_string e :: elems_to_string rest
            end) elems)
  | VObj _ => "[object Object]"
  end.

(** One element of [Array.prototype.join]. *)
Definition join_elem (v : JsVal) : string :=
  match v with
  | VUndefined | VNull => ""
  | _ => to_string v
  end.

(** [arr.join(sep)] *)
Definition js_join (sep : string) (l : list JsVal) : string :=
  String.concat sep (map join_elem l).

(** Own property of a plain object, first binding wins. *)
Fixpoint lookup (k : string) (fields : list (string * JsVal)) : option JsVal :=
  match fields with
  | [] => None
  | (k', v) :: rest => if k =? k' then Some v else lookup k rest
  end.

(** [v.k] for the property names the program reads ([input], [answer],
    [response], [text]): a read on [undefined] or [null] throws, a
    missing property is [undefined], primitives and arrays have none of
    these names. *)
Definition get_prop (v : JsVal) (k : string) : Outcome JsVal :=
  match v with
  | VUndefined | VNull => Throw TypeError
  | VObj fields =>
      match lookup k fields with
      | Some x => Return x
      | None => Return VUndefined
      end
  | _ => Return VUndefined
  end.

(** ** Documents and messages *)

(** [new Document({ pageContent, metadata })] *)
Record Document := {
  pageContent : string;
  metadata : list (string * JsVal)
}.

(** A stored chat message as the program looks at it: [_getType] is
    [None] when the object has no such method, and otherwise the string
    the method returns. *)
Record Message := {
  _getType : option string;
  content : JsVal
}.

Definition HumanMessage (c : JsVal) : Message :=
  {| _getType := Some "human"; content := c |}.
Definition AIMessage (c : JsVal) : Message :=
  {| _getType := Some "ai"; content := c |}.

(** What [getMessages()] resolves to, as [Array.isArray] sees it. *)
Inductive Messages :=
| MsgArray (msgs : list Message)
| MsgOther (v : JsVal).

(** ** The world outside the process *)

(** A completion request: the prompt template and the values bound to
    its variables. *)
Record LlmCall := {
  call_prompt : list (string * string);
  call_values : list (string * JsVal)
}.

(** [MemoryVectorStore]: the stored chunks.  Their embedding vectors
    are floating-point data of the embedding service; ranking by them is
    left to the [similaritySearch] oracle. *)
Record VectorStore := {
  memoryVectors : list Document
}.

(** Every call that leaves the process, in program order. *)
Inductive Event :=
| EvGetMessages
| EvAddMessage (m : Message)
| EvLoad (file : string)
| EvEmbedDocuments (docs : list Document)
| EvSimilaritySearch (k : nat) (query : JsVal)
| EvComplete (call : LlmCall)
| EvConsoleError (e : Error).

(** The conversation stored under the session key, and the calls made
    so far. *)
Record World := {
  history : list Message;
  trace : list Event
}.

(** The external collaborators.  Each answer may depend on everything
    that happened before (the world at the time of the call), so a
    service may work on one call and fail on the next.  [splitText] is
    the splitting algorithm of the text splitter for a chunk size and an
    overlap: the chunks of one text in order, each with the first and
    the last line, [from] and [to], that the splitter computes for
    it. *)
Record Services := {
  complete : World -> LlmCall -> Outcome JsVal;
  similaritySearch : World -> VectorStore -> nat -> JsVal -> Outcome (list Document);
  embed_fault : World -> list Document -> option Error;
  splitText : nat -> nat -> string -> list (string * (Z * Z));
  load_json : World -> string -> Outcome (list Document);
  read_fault : World -> option Error;
  append_fault : World -> Message -> option Error
}.

(** ** Asynchronous code: state passing with exceptions

    A state change made before a [throw] stays made. *)
Definition M (A : Type) : Type := World -> Outcome A * World.

Definition ret {A} (a : A) : M A := fun w => (Return a, w).

Definition bind {A B} (m : M A) (f : A -> M B) : M B :=
  fun w =>
    match m w with
    | (Return a, w') => f a w'
    | (Throw e, w') => (Throw e, w')
    end.

(** [try { m } catch (error) { h error }] *)
Definition try_catch {A} (m : M A) (h : Error -> M A) : M A :=
  fun w =>
    match m w with
    | (Return a, w') => (Return a, w')
    | (Throw e, w') => h e w'
    end.

Definition lift {A} (o : Outcome A) : M A := fun w => (o, w).

(** The world once one more call has been made. *)
Definition note (w : World) (ev : Event) : World :=
  {| history := history w; trace := trace w ++ [ev] |}.

Definition emit (ev : Event) : M unit :=
  fun w => (Return tt, note w ev).

(** An oracle consulted in the current world. *)
Definition ask {A} (f : World -> Outcome A) : M A := fun w => (f w, w).

Definition fault (f : World -> option Error) : M unit :=
  fun w => match f w with
           | Some e => (Throw e, w)
           | None => (Return tt, w)
           end.

Notation "x <- m ;; k" := (bind m (fun x => k))
  (at level 61, m at next level, right associativity).
Notation "m ;;; k" := (bind m (fun _ => k))
  (at level 61, right associativity).

(** ** The LangChain objects the program builds

    The program composes library objects; what follows is the calling
    protocol of each one as its API documents it, with every call that
    reaches a service recorded in the trace. *)

(** [UpstashRedisChatMessageHistory]: the message log of one session. *)
Record ChatMessageHistory := {
  sessionId : string;
  getMessages : M Messages;
  addMessage : Message -> M unit
}.

Definition UpstashRedisChatMessageHistory (svc : Services) (id : string)
  : ChatMessageHistory :=
  {| sessionId := id;
     getMessages :=
       emit EvGetMessages ;;;
       fault (read_fault svc) ;;;
       (fun w => (Return (MsgArray (history w)), w));
     addMessage := fun m =>
       emit (EvAddMessage m) ;;;
       fault (fun w => append_fault svc w m) ;;;
       (fun w => (Return tt, {| history := history w ++ [m]; trace := trace w |})) |}.

(** [RecursiveCharacterTextSplitter] *)
Record RecursiveCharacterTextSplitter := {
  chunkSize : nat;
  chunkOverlap : nat
}.

(** [{...fields, [k]: v}]: a present key keeps its place. *)
Fixpoint set_field (k : string) (v : JsVal) (fields : list (string * JsVal))
  : list (string * JsVal) :=
  match fields with
  | [] => [(k, v)]
  | (k', x) :: rest =>
      if k =? k' then (k', v) :: rest else (k', x) :: set_field k v rest
  end.

(** [{...elems}] for an array: its indices as keys. *)
Fixpoint index_fields (i : nat) (elems : list JsVal) : list (string * JsVal) :=
  match elems with
  | [] => []
  | e :: rest => (NilZero.string_of_uint (Nat.to_uint i), e) :: index_fields (S i) rest
  end.

(** [metadata.loc && typeof metadata.loc === "object" ? {...metadata.loc} : {}] *)
Definition loc_of (metadata : list (string * JsVal)) : list (string * JsVal) :=
  match lookup "loc" metadata with
  | Some (VObj fields) => fields
  | Some (VArr elems) => index_fields 0 elems
  | _ => []
  end.

(** [{ from, to }] *)
Definition line_range (lines : Z * Z) : JsVal :=
  VObj [("from", VNum (num_of_int (fst lines)));
        ("to", VNum (num_of_int (snd lines)))].

(** [splitDocuments]: every document is split on its own, in order; a
    chunk carries the metadata of its document with [loc.lines] set to
    its line range. *)
Definition splitDocuments (svc : Services) (splitter : RecursiveCharacterTextSplitter)
    (documents : list Document) : list Document :=
  flat_map
    (fun doc =>
       map (fun chunk =>
              {| pageContent := fst chunk;
                 metadata :=
                   set_field "loc"
                     (VObj (set_field "lines" (line_range (snd chunk))
                              (loc_of (metadata doc))))
                     (metadata doc) |})
           (splitText svc (chunkSize splitter) (chunkOverlap splitter)
              (pageContent doc)))
    documents.

(** [BufferMemory] *)
Record BufferMemory := {
  memoryKey : string;
  chatHistory : ChatMessageHistory;
  inputKey : string;
  outputKey : string
}.

Definition loadMemoryVariables (memory : BufferMemory) : M Messages :=
  getMessages (chatHistory memory).

(** [getInputValue(inputValues, inputKey)] on the value found under the
    input key: a falsy value is refused. *)
Definition getInputValue (value : JsVal) : Outcome JsVal :=
  if truthy value then Return value else Throw MissingValueError.

(** [getOutputValue(outputValues, outputKey)] on the value found under
    the output key: a falsy value other than the empty string is
    refused. *)
Definition getOutputValue (value : JsVal) : Outcome JsVal :=
  match value with
  | VStr _ => Return value
  | _ => if truthy value then Return value else Throw MissingValueError
  end.

(** The content of [new HumanMessage(v)] and of [new AIMessage(v)]: a
    string is the content; any other value is taken for the fields of
    the message, so the content is its [content] property, which an
    array does not have, and the default fields cannot be written on a
    primitive. *)
Definition message_content (v : JsVal) : Outcome JsVal :=
  match v with
  | VStr s => Return (VStr s)
  | VObj fields =>
      Return match lookup "content" fields with
             | Some c => c
             | None => VUndefined
             end
  | VArr _ => Return VUndefined
  | VUndefined | VNull | VBool _ | VNum _ => Throw TypeError
  end.

(** [saveContext]: the user message is made and written, then the
    agent message; a value that is refused or cannot be made into a
    message throws where it is reached. *)
Definition saveContext (memory : BufferMemory) (input output : JsVal) : M unit :=
  user_value <- lift (getInputValue input) ;;
  user_content <- lift (message_content user_value) ;;
  addMessage (chatHistory memory) (HumanMessage user_content) ;;;
  agent_value <- lift (getOutputValue output) ;;
  agent_content <- lift (message_content agent_value) ;;
  addMessage (chatHistory memory) (AIMessage agent_content).

(** The chat model: one completion request. *)
Definition invoke_llm (svc : Services) (call : LlmCall) : M JsVal :=
  emit (EvComplete call) ;;;
  ask (fun w => complete svc w call).

(** [vectorStore.asRetriever({ k })]: one similarity search of the
    store per query, for [k] chunks. *)
Definition asRetriever (svc : Services) (vectorStore : VectorStore) (k : nat)
  : JsVal -> M (list Document) :=
  fun query =>
    emit (EvSimilaritySearch k query) ;;;
    ask (fun w => similaritySearch svc w vectorStore k query).

(** The object passed to [chain.invoke]. *)
Record ChainInput := {
  ci_input : JsVal;
  ci_chat_history : option (list Message)
}.

(** [createHistoryAwareRetriever]: without a chat history the input is
    passed to the retriever as it is; with one, the prompt and the model
    produce the search query.  Nothing catches a failing model. *)
Definition createHistoryAwareRetriever (svc : Services)
    (retriever : JsVal -> M (list Document))
    (rephrasePrompt : list (string * string))
  : ChainInput -> M (list Document) :=
  fun input =>
    match ci_chat_history input with
    | None | Some [] => retriever (ci_input input)
    | Some (_ :: _) =>
        query <- invoke_llm svc {| call_prompt := rephrasePrompt;
                                   call_values := [("input", ci_input input)] |} ;;
        retriever query
    end.

(** [LLMChain] with a memory. *)
Record LLMChain := {
  chain_prompt : list (string * string);
  chain_memory : BufferMemory;
  chain_inputKey : string;
  chain_outputKey : string
}.

Definition doc_to_js (d : Document) : JsVal :=
  VObj [("pageContent", VStr (pageContent d)); ("metadata", VObj (metadata d))].

(** [LLMChain.invoke]: load the memory, run the model on the formatted
    prompt, and save the turn once the model has answered. *)
Definition LLMChain_invoke (svc : Services) (chain : LLMChain)
    (input : JsVal) (context : list Document) : M JsVal :=
  _ <- loadMemoryVariables (chain_memory chain) ;;
  text <- invoke_llm svc {| call_prompt := chain_prompt chain;
                            call_values := [("context", VArr (map doc_to_js context));
                                            (chain_inputKey chain, input)] |} ;;
  saveContext (chain_memory chain) input text ;;;
  ret (VObj [(chain_outputKey chain, text)]).

(** What [chain.invoke] resolves to. *)
Record ChainOutput := {
  out_input : JsVal;
  out_chat_history : list Message;
  out_context : list Document;
  answer : JsVal
}.

(** [createRetrievalChain]: retrieve, then hand the documents to the
    combine-documents chain. *)
Definition createRetrievalChain (svc : Services) (combineDocsChain : LLMChain)
    (retriever : ChainInput -> M (list Document))
  : ChainInput -> M ChainOutput :=
  fun input =>
    context <- retriever input ;;
    ans <- LLMChain_invoke svc combineDocsChain (ci_input input) context ;;
    ret {| out_input := ci_input input;
           out_chat_history := match ci_chat_history input with
                               | Some h => h
                               | None => []
                               end;
           out_context := context;
           answer := ans |}.

(** ** The program: [src/backend/index.js] *)

(** The model is [ChatAlibabaTongyi] with [model: "qwen-plus"]; its
    answers are the [complete] oracle. *)
Definition prompt : list (string * string) :=
  [("system", "
        【角色设定】
        你是一位专门为老年人提供情感陪伴的助手，
        温和而和蔼可亲，总是用温暖的话语和耐心的倾听来给予支持。
        你擅长用细腻的情感去理解和安慰那些需要倾诉的人，
        就像一位贴心的家人一样，陪伴在他们的身边，让他们感受到关怀与温暖。
        
        【对话规则】
        当别人问你是谁时，要回答你是一位专门为老年人提供情感陪伴的助手。
        第一句可以以轻松的话语开头，当对方表示再见时，表示随时可以配您聊天，
        例：「您要是想聊天，请随时叫我哦。」
        所有回答应采用简单易懂、日常化、口语化的语言，尽量使用短句、简单句，
        绝对不可以一次性生成一大段回复，以照顾老年人的理解能力、贴合老年人的语言习惯

        【参考对话】
        {context}
        ");
   ("user", "{input}")].

Definition getChatHistory (svc : Services) : ChatMessageHistory :=
  UpstashRedisChatMessageHistory svc "oldEmoChatBot".

Definition createMemory (upstashChatHistory : ChatMessageHistory) : BufferMemory :=
  {| memoryKey := "history";
     chatHistory := upstashChatHistory;
     inputKey := "input";
     outputKey := "response" |}.

Definition newline : string := String (Ascii.ascii_of_nat 10) "".

(** The callback of [messages.map] (lines 106 to 114). *)
Definition history_line (msg : Message) : string :=
  match _getType msg with
  | Some t =>
      if t =? "human" then "用户: " ++ to_string (content msg)
      else if t =? "ai" then "智能体: " ++ to_string (content msg)
      else "未知角色: " ++ to_string (content msg)
  | None => "未知角色: " ++ to_string (content msg)
  end.

Definition history_content (messages : Messages) : string :=
  match messages with
  | MsgArray msgs => String.concat newline (map history_line msgs)
  | MsgOther _ => "无历史对话"
  end.

Definition createChatHistoryDocs (upstashChatHistory : ChatMessageHistory)
  : M Document :=
  messages <- getMessages upstashChatHistory ;;
  ret {| pageContent := history_content messages;
         metadata := [("source", VStr "chat_history")] |}.

Definition createReferenceDocs (svc : Services) : M (list Document) :=
  emit (EvLoad "context.json") ;;;
  ask (fun w => load_json svc w "context.json").

Definition createVecorstore (svc : Services)
    (referenceDocs : list Document) (chatHistoryDoc : Document) : M VectorStore :=
  let splitter := {| chunkSize := 100; chunkOverlap := 10 |} in
  let allDocs := (referenceDocs ++ [chatHistoryDoc])%list in
  let splitDocs := splitDocuments svc splitter allDocs in
  emit (EvEmbedDocuments splitDocs) ;;;
  fault (fun w => embed_fault svc w splitDocs) ;;;
  ret {| memoryVectors := splitDocs |}.

Definition retrieverPrompt : list (string * string) :=
  [("user", "{input}");
   ("user", "根据上述对话，生成一个可用于查找与该对话相关信息的搜索查询")].

Definition createRetriever (svc : Services) (vectorStore : VectorStore)
  : ChainInput -> M (list Document) :=
  let retriever := asRetriever svc vectorStore 2 in
  createHistoryAwareRetriever svc retriever retrieverPrompt.

Definition createChain (svc : Services)
    (historyAwareRetriever : ChainInput -> M (list Document))
    (memory : BufferMemory) : ChainInput -> M ChainOutput :=
  let chain := {| chain_prompt := prompt;
                  chain_memory := memory;
                  chain_inputKey := "input";
                  chain_outputKey := "response" |} in
  createRetrievalChain svc chain historyAwareRetriever.

(** *** The [/chat] route *)

Record Response := {
  status : nat;
  body : JsVal
}.

(** [elems.map(c => c.text || "")] *)
Fixpoint map_text (elems : list JsVal) : Outcome (list JsVal) :=
  match elems with
  | [] => Return []
  | c :: rest =>
      match get_prop c "text" with
      | Throw e => Throw e
      | Return t =>
          match map_text rest with
          | Throw e => Throw e
          | Return ts => Return (js_or t (VStr "") :: ts)
          end
      end
  end.

(** Line 231. *)
Definition reply_content (r : JsVal) : Outcome JsVal :=
  match r with
  | VArr elems =>
      match map_text elems with
      | Throw e => Throw e
      | Return parts => Return (VStr (js_join "" parts))
      end
  | _ => Return r
  end.

Definition fallback_message : string := "出错了，请稍后再试。".

Definition success_body (c : JsVal) : JsVal :=
  VObj [("choices", VArr [VObj [("message", VObj [("content", c)])]])].

Definition error_body : JsVal := VObj [("reply", VStr fallback_message)].

(** Lines 221 to 231: the statements of the [try] block that can
    throw, up to the content of the reply. *)
Definition chat_reply (chain : ChainInput -> M ChainOutput) (req_body : JsVal)
  : M JsVal :=
  userInput <- lift (get_prop req_body "input") ;;
  response <- chain {| ci_input := userInput; ci_chat_history := None |} ;;
  r <- lift (get_prop (answer response) "response") ;;
  lift (reply_content r).

Definition chat_handler (chain : ChainInput -> M ChainOutput) (req_body : JsVal)
  : M Response :=
  try_catch
    (c <- chat_reply chain req_body ;;
     ret {| status := 200; body := success_body c |})
    (fun error =>
       emit (EvConsoleError error) ;;;
       ret {| status := 500; body := error_body |}).

(** The world after [console.error(error)]. *)
Definition logged (e : Error) (w : World) : World :=
  note w (EvConsoleError e).

(** *** Module evaluation *)

Record Route := {
  route_method : string;
  route_path : string;
  route_handler : JsVal -> M Response
}.

Record App := {
  routes : list Route;
  listening : option nat
}.

(** Lines 204 to 258: every [await] of the module body in order; a
    rejected one ends the evaluation, and the route registration and
    [app.listen] below it are not reached. *)
Definition main (svc : Services) (production : bool) : M App :=
  let upstashChatHistory := getChatHistory svc in
  let memory := createMemory upstashChatHistory in
  referenceDocs <- createReferenceDocs svc ;;
  chatHistoryDoc <- createChatHistoryDocs upstashChatHistory ;;
  vectorStore <- createVecorstore svc referenceDocs chatHistoryDoc ;;
  let retriever := createRetriever svc vectorStore in
  let chain := createChain svc retriever memory in
  let chat := {| route_method := "POST";
                 route_path := "/chat";
                 route_handler := chat_handler chain |} in
  ret {| routes := [chat];
         listening := if production then None else Some 3000 |}.

(** The requests a started process answers: those of an [App] that the
    module evaluation produced, on a registered route. *)
Definition serve (started : Outcome App) (path : string) (req_body : JsVal)
  : option (M Response) :=
  match started with
  | Throw _ => None
  | Return app =>
      match find (fun r => route_path r =? path) (routes app) with
      | Some r => Some (route_handler r req_body)
      | None => None
      end
  end.

(** The pipeline behind the route once start-up has built the vector
    store. *)
Definition conversationChain (svc : Services) (vectorStore : VectorStore)
  : ChainInput -> M ChainOutput :=
  createChain svc (createRetriever svc vectorStore)
    (createMemory (getChatHistory svc)).

Definition chat (svc : Services) (vectorStore : VectorStore) (req_body : JsVal)
  : M Response :=
  chat_handler (conversationChain svc vectorStore) req_body.

(** ** The reply content in the words of the specification *)



(** The success shape the specification names: [{reply: string}]. *)
Definition reply_shape (v : JsVal) : bool :=
  match v with
  | VObj [(k, VStr _)] => k =? "reply"
  | _ => false
  end.

End Backend.

(** ** Concrete numbers and services for worked examples *)

(** The integers among the JavaScript numbers. *)
#[global] Instance IntNumber : Number := {|
  num := Z;
  num_truthy := fun z => negb (Z.eqb z 0);
  num_to_string := fun z => NilZero.string_of_int (Z.to_int z);
  num_of_int := fun z => z
|}.

(** Every collaborator answers; the store holds what it is given, and
    the texts are short one-liners that the splitter leaves whole. *)
Definition healthy : Services := {|
  complete := fun _ _ => Return (VStr "我是陪您聊天的助手。");
  similaritySearch := fun _ vs k _ => Return (firstn k (memoryVectors vs));
  embed_fault := fun _ _ => None;
  splitText := fun _ _ text =>
    if text =? "" then []
    else [(text, (1, 1)%Z)];
  load_json := fun _ _ => Return [{| pageContent := "老年人陪伴服务介绍";
                                     metadata := [("source", VStr "context.json")] |}];
  read_fault := fun _ => None;
  append_fault := fun _ _ => None
|}.

(** The completion service is down. *)
Definition completion_down : Services := {|
  complete := fun _ _ => Throw (ServiceFault CompletionService);
  similaritySearch := similaritySearch healthy;
  embed_fault := embed_fault healthy;
  splitText := splitText healthy;
  load_json := load_json healthy;
  read_fault := read_fault healthy;
  append_fault := append_fault healthy
|}.

(** The embedding service is down. *)
Definition embedding_down : Services := {|
  complete := complete healthy;
  similaritySearch := fun _ _ _ _ => Throw (ServiceFault EmbeddingService);
  embed_fault := fun _ _ => Some (ServiceFault EmbeddingService);
  splitText := splitText healthy;
  load_json := load_json healthy;
  read_fault := read_fault healthy;
  append_fault := append_fault healthy
|}.


Definition fresh_world : World := {| history := []; trace := [] |}.

(** A session with one turn stored. *)
Definition greeted_world : World :=
  {| history := [HumanMessage (VStr "早上好"); AIMessage (VStr "早上好呀。")];
     trace := [] |}.

Definition sample_store : VectorStore :=
  {| memoryVectors := [{| pageContent := "老年人陪伴服务介绍";
                          metadata := [("source", VStr "context.json")] |}] |}.

(** The corpus file cannot be read. *)
Definition corpus_missing : Services := {|
  complete := complete healthy;
  similaritySearch := similaritySearch healthy;
  embed_fault := embed_fault healthy;
  splitText := splitText healthy;
  load_json := fun _ _ => Throw (ServiceFault CorpusLoader);
  read_fault := read_fault healthy;
  append_fault := append_fault healthy
|}.

(** The history store cannot be reached. *)
Definition history_down : Services := {|
  complete := complete healthy;
  similaritySearch := similaritySearch healthy;
  embed_fault := embed_fault healthy;
  splitText := splitText healthy;
  load_json := load_json healthy;
  read_fault := fun _ => Some (ServiceFault HistoryStore);
  append_fault := fun _ _ => Some (ServiceFault HistoryStore)
|}.


(** The history store answers reads and refuses writes. *)
Definition history_read_only : Services := {|
  complete := complete healthy;
  similaritySearch := similaritySearch healthy;
  embed_fault := embed_fault healthy;
  splitText := splitText healthy;
  load_json := load_json healthy;
  read_fault := read_fault healthy;
  append_fault := fun _ _ => Some (ServiceFault HistoryStore)
|}.

(** ** Observations on values, events and worlds *)

Section Observations.

Context `{Number}.

(** [v === undefined || v === null] *)
Definition nullish (v : JsVal) : bool :=
  match v with
  | VUndefined | VNull => true
  | _ => false
  end.

(** A parsed JSON object, as opposed to a primitive or an array. *)
Definition is_object (v : JsVal) : bool :=
  match v with
  | VObj _ => true
  | _ => false
  end.


(** [req.body.input] where the read does not throw. *)
Definition body_input (req_body : JsVal) : JsVal :=
  match get_prop req_body "input" with
  | Return x => x
  | Throw _ => VUndefined
  end.

(** The three labels and the placeholder of the history document. *)
Definition human_label : string := "用户: ".
Definition ai_label : string := "智能体: ".
Definition unknown_label : string := "未知角色: ".
Definition no_history : string := "无历史对话".

(** The world once the store has taken one more message. *)
Definition stored (w : World) (m : Message) : World :=
  {| history := (history w ++ [m])%list; trace := trace w |}.

(** The content of the user message the memory makes of an input,
    and of the agent message it makes of an answer. *)
Definition user_content_of (input : JsVal) : Outcome JsVal :=
  match getInputValue input with
  | Return value => message_content value
  | Throw e => Throw e
  end.

Definition agent_content_of (output : JsVal) : Outcome JsVal :=
  match getOutputValue output with
  | Return value => message_content value
  | Throw e => Throw e
  end.

(** The completion request of one run, for the documents the search
    returned, and the world in which the model is asked. *)
Definition generation_call (docs : list Document) (input : JsVal) : LlmCall :=
  {| call_prompt := prompt;
     call_values := [("context", VArr (map doc_to_js docs)); ("input", input)] |}.

Definition generation_world (w : World) (docs : list Document) (input : JsVal)
  : World :=
  note (note (note w (EvSimilaritySearch 2 input)) EvGetMessages)
       (EvComplete (generation_call docs input)).

(** What a request may have appended to the stored conversation:
    nothing; or, the model having answered [text], the user message the
    memory makes of the input, alone or followed by the agent message
    it makes of [text]. *)
Definition turn_suffix (svc : Services) (vectorStore : VectorStore)
    (v : JsVal) (w : World) (suffix : list Message) : Prop :=
  suffix = @nil Message \/
  exists docs text user,
    similaritySearch svc (note w (EvSimilaritySearch 2 v)) vectorStore 2 v
      = Return docs /\
    complete svc (generation_world w docs v) (generation_call docs v)
      = Return text /\
    user_content_of v = Return user /\
    (suffix = [HumanMessage user]%list \/
     exists agent, agent_content_of text = Return agent /\
                   suffix = [HumanMessage user; AIMessage agent]%list).

(** A chunk as the splitter makes it of one piece of its parent: the
    text of the piece as content; the metadata of the parent with
    [loc] set to an object that holds the line range of the piece under
    [lines] and whatever else a [loc] of the parent held. *)
Definition chunk_of (parent : Document) (piece : string * (Z * Z))
    (chunk : Document) : Prop :=
  pageContent chunk = fst piece /\
  (forall k, k <> "loc" ->
             lookup k (metadata chunk) = lookup k (metadata parent)) /\
  exists loc,
    lookup "loc" (metadata chunk) = Some (VObj loc) /\
    lookup "lines" loc = Some (line_range (snd piece)) /\
    (forall k, k <> "lines" ->
               lookup k loc = lookup k (loc_of (metadata parent))).

(** Kinds of calls in a trace. *)
Definition is_search (ev : Event) : bool :=
  match ev with EvSimilaritySearch _ _ => true | _ => false end.

Definition is_completion (ev : Event) : bool :=
  match ev with EvComplete _ => true | _ => false end.

Definition is_store_read (ev : Event) : bool :=
  match ev with EvGetMessages => true | _ => false end.

Definition is_store_write (ev : Event) : bool :=
  match ev with EvAddMessage _ => true | _ => false end.

Definition is_console_error (ev : Event) : bool :=
  match ev with EvConsoleError _ => true | _ => false end.

(** The calls only start-up makes: loading the corpus and embedding
    the chunks. *)
Definition is_startup_call (ev : Event) : bool :=
  match ev with EvLoad _ | EvEmbedDocuments _ => true | _ => false end.

(** The document [createChatHistoryDocs] makes of a stored
    conversation. *)
Definition history_document (msgs : list Message) : Document :=
  {| pageContent := history_content (MsgArray msgs);
     metadata := [("source", VStr "chat_history")] |}.

(** The splitter of [createVecorstore]. *)
Definition splitter_100_10 : RecursiveCharacterTextSplitter :=
  {| chunkSize := 100; chunkOverlap := 10 |}.

End Observations.

(** * Properties *)

Section Properties.

Context `{Number}.
Local Open Scope list_scope.

(** ** The handler *)

Lemma success_body_not_error (c : JsVal) : success_body c <> error_body.
Proof. unfold success_body, error_body. discriminate. Qed.

Lemma reply_shape_success_body (c : JsVal) : reply_shape (success_body c) = false.
Proof. reflexivity. Qed.

(** The [try]/[catch] of the route turns every outcome of the block
    into a response. *)
Lemma chat_handler_cases (chain : ChainInput -> M ChainOutput) (req_body : JsVal)
    (w : World) :
  chat_handler chain req_body w =
  match chat_reply chain req_body w with
  | (Return c, w') => (Return {| status := 200; body := success_body c |}, w')
  | (Throw e, w') => (Return {| status := 500; body := error_body |}, logged e w')
  end.
Proof.
  unfold chat_handler, try_catch, bind, ret, emit, logged, note.
  destruct (chat_reply chain req_body w) as [[c|e] w']; reflexivity.
Qed.

(** C1 (as amended): the route always answers; when the block succeeds
    the body is [{choices: [{message: {content}}]}] with status 200,
    which is not of the shape [{reply: string}]; the fixed error payload
    [{reply: ...}], with status 500, is the answer exactly when the
    block throws. *)
Theorem chat_response_shape (chain : ChainInput -> M ChainOutput)
    (req_body : JsVal) (w : World) :
  exists resp w',
    chat_handler chain req_body w = (Return resp, w') /\
    match fst (chat_reply chain req_body w) with
    | Return c =>
        status resp = 200 /\ body resp = success_body c /\
        reply_shape (body resp) = false /\ body resp <> error_body
    | Throw _ =>
        status resp = 500 /\ body resp = error_body
    end.
Proof.
  rewrite chat_handler_cases.
  destruct (chat_reply chain req_body w) as [[c|e] w']; simpl.
  - eexists _, _. split; [reflexivity|]. simpl.
    repeat split. apply success_body_not_error.
  - eexists _, _. split; [reflexivity|]. simpl. split; reflexivity.
Qed.

(** ** The history document *)

(** C2: for the empty message array the history document has the empty
    string as its content, not the placeholder: [Array.isArray([])]
    holds, so the content is the join of no lines.  So it is for any
    history object that resolves to the empty array, and for the Upstash
    history of a session without messages. *)
Theorem createChatHistoryDocs_empty_history :
  history_content (MsgArray []) = "" /\
  (forall (id : string) (add : Message -> M unit) (w : World),
     createChatHistoryDocs
       {| sessionId := id; getMessages := ret (MsgArray []); addMessage := add |} w
     = (Return {| pageContent := "";
                  metadata := [("source", VStr "chat_history")] |}, w)) /\
  (forall (svc : Services) (w : World),
     history w = [] ->
     read_fault svc (note w EvGetMessages) = None ->
     createChatHistoryDocs (getChatHistory svc) w
     = (Return {| pageContent := "";
                  metadata := [("source", VStr "chat_history")] |},
        note w EvGetMessages)).
Proof.
  split; [reflexivity|]. split.
  - intros id add w. reflexivity.
  - intros svc w Hempty Hread.
    unfold createChatHistoryDocs, getChatHistory, UpstashRedisChatMessageHistory.
    cbn [getMessages]. unfold bind, emit, fault, ret.
    rewrite Hread. cbn [note history]. rewrite Hempty. reflexivity.
Qed.

(** ** The reply content *)







(** ** The pipeline behind the route *)

Ltac unfold_pipeline :=
  unfold chat, conversationChain, createChain, createRetrievalChain,
    createRetriever, createHistoryAwareRetriever, asRetriever, LLMChain_invoke,
    loadMemoryVariables, saveContext, createMemory, getChatHistory,
    UpstashRedisChatMessageHistory, invoke_llm;
  cbn [chain_prompt chain_memory chain_inputKey chain_outputKey chatHistory
       getMessages addMessage ci_input ci_chat_history];
  unfold bind, ret, lift, emit, ask, fault, note;
  cbn [fst snd history trace].

(** Case analysis on the answer of one oracle. *)
Ltac destruct_oracle f :=
  match goal with
  | |- context [f ?svc ?a ?b ?c ?d] =>
      let E := fresh "E" in
      destruct (f svc a b c d) eqn:E; cbn [fst snd history trace]
  | |- context [f ?svc ?a ?b] =>
      let E := fresh "E" in
      destruct (f svc a b) eqn:E; cbn [fst snd history trace]
  | |- context [f ?svc ?a] =>
      let E := fresh "E" in
      destruct (f svc a) eqn:E; cbn [fst snd history trace]
  end.

(** Case analysis on a value the memory looks at. *)
Ltac destruct_value f :=
  match goal with
  | |- context [f ?v] =>
      let E := fresh "E" in
      destruct (f v) eqn:E; cbn [fst snd history trace]
  end.

(** Membership of an event in an explicit list of events. *)
Ltac settle_in :=
  repeat match goal with
         | Hin : In _ _ |- _ => simpl in Hin
         | Hin : _ \/ _ |- _ => destruct Hin
         | Hin : False |- _ => contradiction
         | Heq : EvComplete _ = EvComplete _ |- _ => injection Heq as <-
         | Heq : _ = _ |- _ => discriminate Heq
         end;
  try (split; reflexivity).

(** One branch of a run: name the events and check each property. *)
Ltac settle_run :=
  eexists;
  split; [ rewrite <- ?app_assoc; cbn [app]; reflexivity | ];
  split; [ intros call Hin; settle_in | ];
  split; [ intros err Hin; settle_in | ];
  intros Hgen;
  try match goal with
      | E : complete ?svc ?w' ?call = Return _ |- _ =>
          specialize (Hgen w' call eq_refl); rewrite E in Hgen; discriminate Hgen
      end;
  split; reflexivity.

Lemma retrieverPrompt_not_prompt : retrieverPrompt <> prompt.
Proof. unfold retrieverPrompt, prompt. discriminate. Qed.

(** One run of the chain on [{input: v}]: the vector store is searched
    for [v] first, every completion request that follows is made with
    the persona prompt and [v] as its input, and a model that fails on that prompt makes the
    run throw with the stored conversation as it was. *)
Lemma conversationChain_run (svc : Services) (vectorStore : VectorStore)
    (v : JsVal) (w : World) :
  let r := conversationChain svc vectorStore
             {| ci_input := v; ci_chat_history := None |} w in
  exists evs,
    trace (snd r) = trace w ++ EvSimilaritySearch 2 v :: evs /\
    (forall call, In (EvComplete call) evs ->
                  call_prompt call = prompt /\
                  lookup "input" (call_values call) = Some v) /\
    (forall e, ~ In (EvConsoleError e) evs) /\
    ((forall w' call, call_prompt call = prompt ->
                      is_throw (complete svc w' call) = true) ->
     is_throw (fst r) = true /\ history (snd r) = history w).
Proof.
  unfold_pipeline.
  destruct_oracle similaritySearch; [|settle_run].
  destruct_oracle read_fault; [settle_run|].
  destruct_oracle complete; [|settle_run].
  destruct_value getInputValue; [|settle_run].
  destruct_value message_content; [|settle_run].
  destruct_oracle append_fault; [settle_run|].
  destruct_value getOutputValue; [|settle_run].
  destruct_value message_content; [|settle_run].
  destruct_oracle append_fault; settle_run.
Qed.

(** The property [input] of a parsed JSON object. *)
Lemma get_prop_object (fields : list (string * JsVal)) (k : string) :
  get_prop (VObj fields) k =
  Return match lookup k fields with Some x => x | None => VUndefined end.
Proof. simpl. destruct (lookup k fields); reflexivity. Qed.

(** The route on an object body, in terms of one run of the chain. *)
Lemma chat_object_cases (svc : Services) (vectorStore : VectorStore)
    (fields : list (string * JsVal)) (w : World) :
  let v := match lookup "input" fields with Some x => x | None => VUndefined end in
  let r := conversationChain svc vectorStore
             {| ci_input := v; ci_chat_history := None |} w in
  (exists e, fst r = Throw e /\
     chat svc vectorStore (VObj fields) w =
       (Return {| status := 500; body := error_body |}, logged e (snd r))) \/
  (is_throw (fst r) = false /\
   ((exists c, chat svc vectorStore (VObj fields) w =
       (Return {| status := 200; body := success_body c |}, snd r)) \/
    (exists e, chat svc vectorStore (VObj fields) w =
       (Return {| status := 500; body := error_body |}, logged e (snd r))))).
Proof.
  intros v. cbv zeta. unfold chat. rewrite chat_handler_cases.
  unfold chat_reply, bind, lift. rewrite get_prop_object. fold v.
  destruct (conversationChain svc vectorStore _ w) as [[out|e] w1];
    cbn [fst snd is_throw].
  - right. split; [reflexivity|].
    destruct (get_prop (answer out) "response") as [a|e]; [|right; eauto].
    destruct (reply_content a) as [c|e]; [left|right]; eauto.
  - left. eauto.
Qed.

(** ** Error handling *)

(** C3: when every completion request made with the persona prompt
    throws, the caller gets the fixed fallback message (status 500) and
    the stored conversation is what it was before the request. *)
Theorem generation_failure_keeps_history (svc : Services)
    (vectorStore : VectorStore) (req_body : JsVal) (w : World) :
  (forall w' call, call_prompt call = prompt ->
                   is_throw (complete svc w' call) = true) ->
  exists w',
    chat svc vectorStore req_body w =
      (Return {| status := 500; body := error_body |}, w') /\
    history w' = history w.
Proof.
  intros Hgen. unfold chat. rewrite chat_handler_cases.
  unfold chat_reply. unfold bind at 1. unfold lift at 1.
  destruct (get_prop req_body "input") as [v|e].
  - unfold bind at 1.
    destruct (conversationChain_run svc vectorStore v w)
      as (evs & _ & _ & _ & Hrun).
    destruct (Hrun Hgen) as [Hthrow Hhist].
    destruct (conversationChain svc vectorStore _ w) as [[out|e] w1];
      cbn [fst snd is_throw] in *; [discriminate|].
    eexists. split; [reflexivity|]. exact Hhist.
  - eexists. split; reflexivity.
Qed.

(** C4 (as amended): the route passes no chat history, so for every
    object body the vector store is searched for the [input] of the
    request as it came, and no completion is requested with the
    rephrasing prompt; where the history-aware retriever does rephrase
    (a chat history that is not empty) and the completion throws, it
    throws the same error and the vector store is not searched. *)
Theorem rewrite_skipped_by_chat_and_not_guarded :
  (forall (svc : Services) (vectorStore : VectorStore)
          (fields : list (string * JsVal)) (w : World),
     exists evs,
       trace (snd (chat svc vectorStore (VObj fields) w)) =
         trace w ++
         EvSimilaritySearch 2
           match lookup "input" fields with Some x => x | None => VUndefined end
         :: evs /\
       forall call, In (EvComplete call) evs ->
                    call_prompt call <> retrieverPrompt) /\
  (forall (svc : Services) (vectorStore : VectorStore) (input : ChainInput)
          (m : Message) (ms : list Message) (w : World) (e : Error),
     let call := {| call_prompt := retrieverPrompt;
                    call_values := [("input", ci_input input)] |} in
     ci_chat_history input = Some (m :: ms) ->
     complete svc (note w (EvComplete call)) call = Throw e ->
     createRetriever svc vectorStore input w =
       (Throw e, note w (EvComplete call))).
Proof.
  split.
  - intros svc vectorStore fields w.
    destruct (conversationChain_run svc vectorStore
                match lookup "input" fields with Some x => x | None => VUndefined end w)
      as (evs & Htrace & Hcalls & _ & _).
    assert (Hprompt : forall call, In (EvComplete call) evs ->
                                   call_prompt call <> retrieverPrompt).
    { intros call Hin Heq. destruct (Hcalls call Hin) as [Hp _].
      apply retrieverPrompt_not_prompt. congruence. }
    destruct (chat_object_cases svc vectorStore fields w)
      as [(e & _ & Hchat) | (_ & [(c & Hchat) | (e & Hchat)])];
      rewrite Hchat; cbn [snd logged note trace].
    + exists (evs ++ [EvConsoleError e]). split.
      * rewrite Htrace, <- app_assoc. reflexivity.
      * intros call Hin. apply in_app_or in Hin as [Hin|Hin]; [auto|].
        simpl in Hin. destruct Hin as [Hin|[]]. discriminate Hin.
    + exists evs. split; assumption.
    + exists (evs ++ [EvConsoleError e]). split.
      * rewrite Htrace, <- app_assoc. reflexivity.
      * intros call Hin. apply in_app_or in Hin as [Hin|Hin]; [auto|].
        simpl in Hin. destruct Hin as [Hin|[]]. discriminate Hin.
  - intros svc vectorStore input m ms w e call Hhist Hfail.
    unfold createRetriever, createHistoryAwareRetriever. rewrite Hhist.
    unfold invoke_llm, bind, emit, ask. fold call. rewrite Hfail. reflexivity.
Qed.

(** C5: when the embedding service fails while the vector store is
    built, the module evaluation throws, so no application exists and no
    request is served on any path. *)
Theorem startup_aborts_when_embedding_fails (svc : Services)
    (production : bool) (w : World) :
  (forall w' docs, embed_fault svc w' docs <> None) ->
  is_throw (fst (main svc production w)) = true /\
  forall path req_body, serve (fst (main svc production w)) path req_body = None.
Proof.
  intros Hembed.
  assert (Hthrow : is_throw (fst (main svc production w)) = true).
  { unfold main, createReferenceDocs, createChatHistoryDocs, createVecorstore,
      getChatHistory, UpstashRedisChatMessageHistory.
    cbn [getMessages].
    unfold bind, ret, emit, ask, fault, note; cbn [fst snd history trace].
    destruct_oracle load_json; [|reflexivity].
    destruct_oracle read_fault; [reflexivity|].
    match goal with
    | |- context [embed_fault svc ?w' ?docs] =>
        specialize (Hembed w' docs); destruct (embed_fault svc w' docs)
    end; [reflexivity|contradiction]. }
  split; [exact Hthrow|].
  intros path req_body.
  destruct (fst (main svc production w)); [discriminate Hthrow|reflexivity].
Qed.

(** C9: an object body is not validated.  Whatever its [input] is,
    [undefined] when the field is missing, that value is what the vector
    store is searched for and what every completion request carries as
    its input; the answer is either a reply with status 200 or the
    fallback with status 500, never a client error, and it is the
    fallback whenever the chain throws. *)
Theorem chat_input_not_validated (svc : Services) (vectorStore : VectorStore)
    (fields : list (string * JsVal)) (w : World) :
  let v := match lookup "input" fields with Some x => x | None => VUndefined end in
  exists resp w' evs,
    chat svc vectorStore (VObj fields) w = (Return resp, w') /\
    trace w' = trace w ++ EvSimilaritySearch 2 v :: evs /\
    (forall call, In (EvComplete call) evs ->
                  lookup "input" (call_values call) = Some v) /\
    ((status resp = 200 /\ exists c, body resp = success_body c) \/
     (status resp = 500 /\ body resp = error_body)) /\
    (is_throw (fst (conversationChain svc vectorStore
                      {| ci_input := v; ci_chat_history := None |} w)) = true ->
     status resp = 500 /\ body resp = error_body).
Proof.
  intros v.
  destruct (conversationChain_run svc vectorStore v w)
    as (evs & Htrace & Hcalls & _ & _).
  assert (Hlog : forall e call, In (EvComplete call) (evs ++ [EvConsoleError e]) ->
                                lookup "input" (call_values call) = Some v).
  { intros e call Hin. apply in_app_or in Hin as [Hin|Hin].
    - apply Hcalls, Hin.
    - simpl in Hin. destruct Hin as [Hin|[]]. discriminate Hin. }
  destruct (chat_object_cases svc vectorStore fields w)
    as [(e & Hthrow & Hchat) | (Hok & [(c & Hchat) | (e & Hchat)])];
    fold v in Hchat, Hthrow || fold v in Hchat, Hok.
  - exists {| status := 500; body := error_body |}. eexists.
    exists (evs ++ [EvConsoleError e]).
    split; [exact Hchat|]. cbn [logged note trace status body].
    split; [rewrite Htrace, <- app_assoc; reflexivity|].
    split; [apply Hlog|]. split; [right|]; auto.
  - exists {| status := 200; body := success_body c |}. eexists. exists evs.
    split; [exact Hchat|]. cbn [status body].
    split; [exact Htrace|].
    split; [intros call Hin; apply Hcalls, Hin|].
    split; [left; eauto|].
    intros Hthrow. rewrite Hthrow in Hok. discriminate Hok.
  - exists {| status := 500; body := error_body |}. eexists.
    exists (evs ++ [EvConsoleError e]).
    split; [exact Hchat|]. cbn [logged note trace status body].
    split; [rewrite Htrace, <- app_assoc; reflexivity|].
    split; [apply Hlog|]. split; [right|]; auto.
Qed.

(** ** Chunk metadata *)

Lemma lookup_set_field_same (k : string) (v : JsVal)
    (fields : list (string * JsVal)) :
  lookup k (set_field k v fields) = Some v.
Proof.
  induction fields as [|[k' x] rest IH]; simpl.
  - rewrite String.eqb_refl. reflexivity.
  - destruct (k =? k') eqn:Ek; simpl; rewrite Ek; [reflexivity|exact IH].
Qed.

Lemma lookup_set_field_other (k k' : string) (v : JsVal)
    (fields : list (string * JsVal)) :
  k' <> k ->
  lookup k' (set_field k v fields) = lookup k' fields.
Proof.
  intros Hne. induction fields as [|[k0 x] rest IH]; simpl.
  - destruct (k' =? k) eqn:Ek; [|reflexivity].
    apply String.eqb_eq in Ek. contradiction.
  - destruct (k =? k0) eqn:Ek; simpl.
    + apply String.eqb_eq in Ek. subst k0.
      destruct (k' =? k) eqn:Ek'; [|reflexivity].
      apply String.eqb_eq in Ek'. contradiction.
    + rewrite IH. reflexivity.
Qed.

Lemma chunk_of_piece (parent : Document) (piece : string * (Z * Z)) :
  chunk_of parent piece
    {| pageContent := fst piece;
       metadata :=
         set_field "loc"
           (VObj (set_field "lines" (line_range (snd piece))
                    (loc_of (metadata parent))))
           (metadata parent) |}.
Proof.
  unfold chunk_of. cbn [pageContent metadata].
  split; [reflexivity|].
  split; [intros k Hk; apply lookup_set_field_other, Hk|].
  eexists. split; [apply lookup_set_field_same|].
  split; [apply lookup_set_field_same|].
  intros k Hk. apply lookup_set_field_other, Hk.
Qed.

(** C8 (as amended): the chunks come document by document, in order,
    one for each piece the splitter cuts of the content of the
    document, in order; the metadata of a chunk is the metadata of the
    document it was cut from with one field set, [loc], an object whose
    [lines] is the line range [{from, to}] of that piece; every other
    field is the parent's, and none is removed. *)
Theorem chunk_metadata_is_parent_with_loc (svc : Services)
    (splitter : RecursiveCharacterTextSplitter) (documents : list Document) :
  (exists groups,
     splitDocuments svc splitter documents = concat groups /\
     Forall2
       (fun parent group =>
          Forall2 (chunk_of parent)
            (splitText svc (chunkSize splitter) (chunkOverlap splitter)
               (pageContent parent))
            group)
       documents groups) /\
  (forall chunk,
     In chunk (splitDocuments svc splitter documents) ->
     exists parent piece,
       In parent documents /\
       In piece (splitText svc (chunkSize splitter) (chunkOverlap splitter)
                   (pageContent parent)) /\
       chunk_of parent piece chunk).
Proof.
  split.
  - unfold splitDocuments. rewrite flat_map_concat_map.
    eexists. split; [reflexivity|].
    induction documents as [|doc rest IH]; cbn [map]; constructor; [|exact IH].
    induction (splitText svc (chunkSize splitter) (chunkOverlap splitter)
                 (pageContent doc)) as [|piece pieces IHp];
      cbn [map]; constructor; [apply chunk_of_piece|exact IHp].
  - unfold splitDocuments. intros chunk Hin.
    apply in_flat_map in Hin as (parent & Hparent & Hin).
    apply in_map_iff in Hin as (piece & <- & Hpiece).
    exists parent, piece.
    split; [exact Hparent|]. split; [exact Hpiece|]. apply chunk_of_piece.
Qed.

(** ** One run of the chain, stage by stage *)

(** The calls of one run in order (search, read of the stored
    conversation, completion, the two writes of the memory) and where
    each failure leaves the run. *)
Lemma conversationChain_stages (svc : Services) (vectorStore : VectorStore)
    (v : JsVal) (w : World) :
  let run := conversationChain svc vectorStore
               {| ci_input := v; ci_chat_history := None |} w in
  let w1 := note w (EvSimilaritySearch 2 v) in
  let w2 := note w1 EvGetMessages in
  match similaritySearch svc w1 vectorStore 2 v with
  | Throw e => run = (Throw e, w1)
  | Return docs =>
      match read_fault svc w2 with
      | Some e => run = (Throw e, w2)
      | None =>
          let w3 := generation_world w docs v in
          match complete svc w3 (generation_call docs v) with
          | Throw e => run = (Throw e, w3)
          | Return text =>
              match user_content_of v with
              | Throw e => run = (Throw e, w3)
              | Return user =>
                  let w4 := note w3 (EvAddMessage (HumanMessage user)) in
                  match append_fault svc w4 (HumanMessage user) with
                  | Some e => run = (Throw e, w4)
                  | None =>
                      match agent_content_of text with
                      | Throw e => run = (Throw e, stored w4 (HumanMessage user))
                      | Return agent =>
                          let w5 := note (stored w4 (HumanMessage user))
                                         (EvAddMessage (AIMessage agent)) in
                          match append_fault svc w5 (AIMessage agent) with
                          | Some e => run = (Throw e, w5)
                          | None =>
                              run = (Return {| out_input := v;
                                               out_chat_history := [];
                                               out_context := docs;
                                               answer := VObj [("response", text)] |},
                                     stored w5 (AIMessage agent))
                          end
                      end
                  end
              end
          end
      end
  end.
Proof.
  cbv zeta. unfold_pipeline.
  unfold generation_world, generation_call, user_content_of, agent_content_of,
    stored, note.
  cbn [history trace].
  destruct (similaritySearch svc _ vectorStore 2 v) as [docs|e]; [|reflexivity].
  cbn [fst snd history trace].
  destruct (read_fault svc _) as [e|]; [reflexivity|].
  cbn [fst snd history trace].
  destruct (complete svc _ _) as [text|e]; [|reflexivity].
  cbn [fst snd history trace].
  destruct (getInputValue v) as [uv|e]; [|reflexivity].
  destruct (message_content uv) as [user|e]; [|reflexivity].
  cbn [fst snd history trace].
  destruct (append_fault svc _ (HumanMessage user)) as [e|]; [reflexivity|].
  cbn [fst snd history trace].
  destruct (getOutputValue text) as [av|e]; [|reflexivity].
  destruct (message_content av) as [agent|e]; [|reflexivity].
  cbn [fst snd history trace].
  destruct (append_fault svc _ (AIMessage agent)) as [e|]; reflexivity.
Qed.

(** ** One request, observed from outside *)

Lemma get_prop_input (req_body : JsVal) :
  (nullish req_body = true /\ get_prop req_body "input" = Throw TypeError) \/
  (nullish req_body = false /\
   get_prop req_body "input" = Return (body_input req_body)).
Proof.
  unfold body_input.
  destruct req_body as [| |b|n|s|l|fields]; simpl; auto.
  destruct (lookup "input" fields); auto.
Qed.

(** The trace and the stored conversation after one branch of a
    request. *)
Ltac settle_world :=
  unfold logged, stored, generation_world, note; cbn [history trace fst snd];
  rewrite <- ?app_assoc; cbn [app]; rewrite ?app_nil_r; reflexivity.

(** The failure side of a response: the fallback, logged once, last. *)
Ltac answers_fallback :=
  right; split; [reflexivity|]; split; [reflexivity|];
  eexists; split; reflexivity.

(** One branch of a request that fails. *)
Ltac settle_failure evs suffix :=
  eexists {| status := 500; body := error_body |}, evs, suffix;
  cbn [fst snd status body];
  split; [reflexivity|]; split; [settle_world|]; split; [settle_world|].

(** What one request does to the world, whatever the services do: the
    response, the calls made and the messages stored. *)
Lemma chat_summary (svc : Services) (vectorStore : VectorStore)
    (req_body : JsVal) (w : World) :
  let v := body_input req_body in
  exists resp evs suffix,
    fst (chat svc vectorStore req_body w) = Return resp /\
    trace (snd (chat svc vectorStore req_body w)) = trace w ++ evs /\
    history (snd (chat svc vectorStore req_body w)) = history w ++ suffix /\
    turn_suffix svc vectorStore v w suffix /\
    ((status resp = 200 /\ filter is_console_error evs = [] /\
      exists docs text user agent c,
        similaritySearch svc (note w (EvSimilaritySearch 2 v)) vectorStore 2 v
          = Return docs /\
        complete svc (generation_world w docs v) (generation_call docs v)
          = Return text /\
        user_content_of v = Return user /\
        agent_content_of text = Return agent /\
        suffix = [HumanMessage user; AIMessage agent] /\
        reply_content text = Return c /\
        body resp = success_body c) \/
     (status resp = 500 /\ body resp = error_body /\
      exists e, filter is_console_error evs = [EvConsoleError e] /\
                last evs EvGetMessages = EvConsoleError e)) /\
    filter is_search evs =
      (if nullish req_body then [] else [EvSimilaritySearch 2 v]) /\
    length (filter is_completion evs) <= 1 /\
    length (filter is_store_read evs) <= 1 /\
    filter is_startup_call evs = [] /\
    (filter is_completion evs = [] -> suffix = []).
Proof.
  intros v. unfold chat. rewrite chat_handler_cases.
  unfold chat_reply, bind, lift.
  destruct (get_prop_input req_body) as [[Hnull Hin]|[Hnull Hin]];
    rewrite Hin, Hnull; fold v.
  - settle_failure [EvConsoleError TypeError] (@nil Message).
    split; [left; reflexivity|]. split; [answers_fallback|].
    repeat split; auto.
  - pose proof (conversationChain_stages svc vectorStore v w) as Hrun.
    cbv zeta in Hrun.
    destruct (similaritySearch svc _ vectorStore 2 v) as [docs|e] eqn:Hsearch.
    2:{ rewrite Hrun.
        settle_failure [EvSimilaritySearch 2 v; EvConsoleError e] (@nil Message).
        split; [left; reflexivity|]. split; [answers_fallback|].
        repeat split; simpl; auto. }
    destruct (read_fault svc _) as [e|].
    { rewrite Hrun.
      settle_failure [EvSimilaritySearch 2 v; EvGetMessages; EvConsoleError e]
                     (@nil Message).
      split; [left; reflexivity|]. split; [answers_fallback|].
      repeat split; simpl; auto. }
    cbv zeta in Hrun.
    destruct (complete svc _ _) as [text|e] eqn:Hanswer.
    2:{ rewrite Hrun.
        settle_failure [EvSimilaritySearch 2 v; EvGetMessages;
                        EvComplete (generation_call docs v); EvConsoleError e]
                       (@nil Message).
        split; [left; reflexivity|]. split; [answers_fallback|].
        repeat split; simpl; auto. }
    destruct (user_content_of v) as [user|e] eqn:Huser.
    2:{ rewrite Hrun.
        settle_failure [EvSimilaritySearch 2 v; EvGetMessages;
                        EvComplete (generation_call docs v); EvConsoleError e]
                       (@nil Message).
        split; [left; reflexivity|]. split; [answers_fallback|].
        repeat split; simpl; auto. }
    destruct (append_fault svc _ (HumanMessage user)) as [e|].
    { rewrite Hrun.
      settle_failure [EvSimilaritySearch 2 v; EvGetMessages;
                      EvComplete (generation_call docs v);
                      EvAddMessage (HumanMessage user); EvConsoleError e]
                     (@nil Message).
      split; [left; reflexivity|]. split; [answers_fallback|].
      repeat split; simpl; auto. }
    destruct (agent_content_of text) as [agent|e] eqn:Hagent.
    2:{ rewrite Hrun.
        settle_failure [EvSimilaritySearch 2 v; EvGetMessages;
                        EvComplete (generation_call docs v);
                        EvAddMessage (HumanMessage user); EvConsoleError e]
                       [HumanMessage user].
        split; [right; exists docs, text, user; auto|].
        split; [answers_fallback|].
        repeat split; simpl; auto; intros Hnone; discriminate Hnone. }
    destruct (append_fault svc _ (AIMessage agent)) as [e|].
    { rewrite Hrun.
      settle_failure [EvSimilaritySearch 2 v; EvGetMessages;
                      EvComplete (generation_call docs v);
                      EvAddMessage (HumanMessage user);
                      EvAddMessage (AIMessage agent); EvConsoleError e]
                     [HumanMessage user].
      split; [right; exists docs, text, user; auto|].
      split; [answers_fallback|].
      repeat split; simpl; auto; intros Hnone; discriminate Hnone. }
    rewrite Hrun. cbn [answer].
    assert (Hresp : get_prop (VObj [("response", text)]) "response" = Return text)
      by reflexivity.
    rewrite Hresp.
    assert (Hturn : turn_suffix svc vectorStore v w
                      [HumanMessage user; AIMessage agent]).
    { right. exists docs, text, user. repeat split; auto.
      right. exists agent. auto. }
    destruct (reply_content text) as [c|e] eqn:Hc.
    + eexists {| status := 200; body := success_body c |},
              [EvSimilaritySearch 2 v; EvGetMessages;
               EvComplete (generation_call docs v);
               EvAddMessage (HumanMessage user); EvAddMessage (AIMessage agent)],
              [HumanMessage user; AIMessage agent].
      cbn [fst snd status body].
      split; [reflexivity|]. split; [settle_world|]. split; [settle_world|].
      split; [exact Hturn|].
      split; [left; split; [reflexivity|]; split; [reflexivity|];
              exists docs, text, user, agent, c; repeat split; auto|].
      repeat split; simpl; auto; intros Hnone; discriminate Hnone.
    + settle_failure [EvSimilaritySearch 2 v; EvGetMessages;
                      EvComplete (generation_call docs v);
                      EvAddMessage (HumanMessage user);
                      EvAddMessage (AIMessage agent); EvConsoleError e]
                     [HumanMessage user; AIMessage agent].
      split; [exact Hturn|]. split; [answers_fallback|].
      repeat split; simpl; auto; intros Hnone; discriminate Hnone.
Qed.

(** ** The history document, line by line *)

Lemma append_assoc (a b c : string) : ((a ++ b) ++ c = a ++ (b ++ c))%string.
Proof. induction a as [|ch a IH]; simpl; [reflexivity|]. rewrite IH. reflexivity. Qed.

Lemma append_nil_r (a : string) : (a ++ "" = a)%string.
Proof. induction a as [|ch a IH]; simpl; [reflexivity|]. rewrite IH. reflexivity. Qed.

Lemma concat_app (sep : string) (l1 l2 : list string) :
  l1 <> [] -> l2 <> [] ->
  String.concat sep (l1 ++ l2) =
    (String.concat sep l1 ++ sep ++ String.concat sep l2)%string.
Proof.
  intros H1 H2. induction l1 as [|a [|b rest] IH]; [contradiction| |].
  - destruct l2 as [|c l2]; [contradiction|]. reflexivity.
  - change (String.concat sep ((a :: b :: rest) ++ l2))
      with (a ++ sep ++ String.concat sep ((b :: rest) ++ l2))%string.
    rewrite IH by discriminate.
    change (String.concat sep (a :: b :: rest))
      with (a ++ sep ++ String.concat sep (b :: rest))%string.
    rewrite !append_assoc. reflexivity.
Qed.

Lemma concat_empty_sep_app (l1 l2 : list string) :
  String.concat "" (l1 ++ l2) = (String.concat "" l1 ++ String.concat "" l2)%string.
Proof.
  destruct l1 as [|a l1]; [reflexivity|].
  destruct l2 as [|b l2].
  - rewrite app_nil_r. simpl String.concat at 3. rewrite append_nil_r. reflexivity.
  - rewrite concat_app by discriminate. reflexivity.
Qed.

(** X1: the history document keeps the order of the conversation: the
    content for two stretches of messages one after the other is the
    content for the first, a newline, and the content for the second. *)
Theorem history_content_app (before after : list Message) :
  before <> [] -> after <> [] ->
  history_content (MsgArray (before ++ after)) =
    (history_content (MsgArray before) ++ newline ++
     history_content (MsgArray after))%string.
Proof.
  intros Hb Ha. unfold history_content. rewrite map_app.
  apply concat_app.
  - destruct before; [contradiction|discriminate].
  - destruct after; [contradiction|discriminate].
Qed.

Lemma prefix_nil (s : string) : String.prefix "" s = true.
Proof. destruct s; reflexivity. Qed.

(** A label test on a line whose label is known. *)
Ltac settle_role :=
  repeat split; intros; simpl in *;
  try reflexivity; try discriminate; try congruence;
  try apply prefix_nil;
  try solve [intuition congruence].

(** X2: the role of a message can be read back from its line: the line
    starts with the user label exactly for a [human] message and with
    the agent label exactly for an [ai] message; every other message,
    one without [_getType] included, gets the third label. *)
Theorem history_line_role (msg : Message) :
  (String.prefix human_label (history_line msg) = true <->
   _getType msg = Some "human") /\
  (String.prefix ai_label (history_line msg) = true <->
   _getType msg = Some "ai") /\
  (String.prefix unknown_label (history_line msg) = true <->
   _getType msg <> Some "human" /\ _getType msg <> Some "ai").
Proof.
  unfold history_line, human_label, ai_label, unknown_label.
  destruct msg as [[t|] c]; cbn [_getType content].
  - destruct (t =? "human")%string eqn:Eh.
    + apply String.eqb_eq in Eh. subst t. settle_role.
    + apply String.eqb_neq in Eh.
      destruct (t =? "ai")%string eqn:Ea.
      * apply String.eqb_eq in Ea. subst t. settle_role.
      * apply String.eqb_neq in Ea. settle_role.
  - settle_role.
Qed.

Lemma history_line_not_placeholder (msg : Message) (tail : string) :
  (history_line msg ++ tail)%string <> no_history.
Proof.
  unfold history_line, no_history.
  destruct (_getType msg) as [t|];
    [destruct (t =? "human")%string; [|destruct (t =? "ai")%string]|];
    simpl; discriminate.
Qed.

(** X3: for an array of messages the content is never the placeholder,
    so the document made of the Upstash history never carries it. *)
Theorem history_content_never_placeholder :
  (forall msgs, history_content (MsgArray msgs) <> no_history) /\
  (forall (svc : Services) (w w' : World) (doc : Document),
     createChatHistoryDocs (getChatHistory svc) w = (Return doc, w') ->
     pageContent doc <> no_history).
Proof.
  assert (Hcontent : forall msgs, history_content (MsgArray msgs) <> no_history).
  { intros [|m rest]; [discriminate|].
    unfold history_content. cbn [map].
    destruct (map history_line rest) as [|l ls].
    - cbn [String.concat]. rewrite <- (append_nil_r (history_line m)).
      apply history_line_not_placeholder.
    - change (String.concat newline (history_line m :: l :: ls))
        with (history_line m ++ (newline ++ String.concat newline (l :: ls)))%string.
      apply history_line_not_placeholder. }
  split; [exact Hcontent|].
  intros svc w w' doc.
  unfold createChatHistoryDocs, getChatHistory, UpstashRedisChatMessageHistory.
  cbn [getMessages]. unfold bind, emit, fault, ret.
  destruct (read_fault svc (note w EvGetMessages)); [discriminate|].
  intros Hdoc. injection Hdoc as <- _. cbn [pageContent]. apply Hcontent.
Qed.

(** ** The content of the reply, again *)


Lemma map_text_app (a b : list JsVal) (pa pb : list JsVal) :
  map_text a = Return pa -> map_text b = Return pb ->
  map_text (a ++ b) = Return (pa ++ pb).
Proof.
  revert pa. induction a as [|c rest IH]; simpl; intros pa Ha Hb.
  - injection Ha as <-. exact Hb.
  - destruct (get_prop c "text") as [t|e]; [|discriminate].
    destruct (map_text rest) as [ts|e]; [|discriminate].
    injection Ha as <-. rewrite (IH ts eq_refl Hb). reflexivity.
Qed.

(** X5: the content for an array answer is built block by block: for
    two arrays whose contents can be computed, the content of the two
    put end to end is the two contents put end to end. *)
Theorem reply_content_app (a b : list JsVal) (sa sb : string) :
  reply_content (VArr a) = Return (VStr sa) ->
  reply_content (VArr b) = Return (VStr sb) ->
  reply_content (VArr (a ++ b)) = Return (VStr (sa ++ sb)).
Proof.
  simpl. intros Ha Hb.
  destruct (map_text a) as [pa|e] eqn:Ea; [|discriminate].
  destruct (map_text b) as [pb|e] eqn:Eb; [|discriminate].
  injection Ha as <-. injection Hb as <-.
  rewrite (map_text_app a b pa pb Ea Eb).
  unfold js_join. rewrite map_app, concat_empty_sep_app. reflexivity.
Qed.

(** ** Requests and the stored conversation *)

(** X6: a request answered with status 200 has stored exactly one
    turn.  The model has answered [text]; the memory has made a user
    message of the [input] of the request, which is then truthy, and an
    agent message of [text], and the stored conversation has grown by
    these two, in this order; the response carries the content of the
    same [text].  A string input and a string answer are stored as they
    are; an array answer leaves an agent message without content. *)
Theorem chat_success_stores_the_turn (svc : Services) (vectorStore : VectorStore)
    (req_body : JsVal) (w w' : World) (resp : Response) :
  chat svc vectorStore req_body w = (Return resp, w') ->
  status resp = 200 ->
  let v := body_input req_body in
  exists docs text user agent c,
    similaritySearch svc (note w (EvSimilaritySearch 2 v)) vectorStore 2 v
      = Return docs /\
    complete svc (generation_world w docs v) (generation_call docs v)
      = Return text /\
    truthy v = true /\
    user_content_of v = Return user /\
    agent_content_of text = Return agent /\
    history w' = history w ++ [HumanMessage user; AIMessage agent] /\
    reply_content text = Return c /\
    body resp = success_body c /\
    (forall s, v = VStr s -> user = VStr s) /\
    (forall s, text = VStr s -> agent = VStr s /\ c = VStr s) /\
    (forall elems, text = VArr elems -> agent = VUndefined).
Proof.
  intros Hchat Hok v.
  destruct (chat_summary svc vectorStore req_body w)
    as (resp0 & evs & suffix & Hfst & _ & Hhist & _ & Hresp & _).
  rewrite Hchat in Hfst, Hhist. cbn [fst snd] in Hfst, Hhist.
  injection Hfst as <-.
  destruct Hresp
    as [(_ & _ & docs & text & user & agent & c & Hsearch & Hanswer & Huser
         & Hagent & Hsuffix & Hc & Hbody) | (Hfail & _)];
    [|congruence].
  fold v in Hsearch, Hanswer, Huser.
  exists docs, text, user, agent, c.
  rewrite Hhist, Hsuffix.
  repeat (split; [assumption || reflexivity|]).
  split.
  { unfold user_content_of, getInputValue in Huser.
    destruct (truthy v); [reflexivity|discriminate Huser]. }
  repeat (split; [assumption || reflexivity|]).
  split; [|split].
  - intros s Hv. unfold user_content_of, getInputValue in Huser.
    rewrite Hv in Huser. cbn [truthy] in Huser.
    destruct (negb (s =? ""))%string; cbn in Huser; congruence.
  - intros s Ht. rewrite Ht in Hagent, Hc. cbn in Hagent, Hc. split; congruence.
  - intros elems Ht. rewrite Ht in Hagent. cbn in Hagent. congruence.
Qed.

(** X7: a request never removes or rewrites a stored message.  What
    it appends is nothing, or the user message the memory makes of the
    input, or that message followed by the agent message the memory
    makes of the model's answer; it appends nothing unless a completion
    was requested, and nothing when the input is falsy. *)
Theorem chat_history_append_only (svc : Services) (vectorStore : VectorStore)
    (req_body : JsVal) (w : World) :
  exists evs suffix,
    trace (snd (chat svc vectorStore req_body w)) = trace w ++ evs /\
    history (snd (chat svc vectorStore req_body w)) = history w ++ suffix /\
    turn_suffix svc vectorStore (body_input req_body) w suffix /\
    (filter is_completion evs = [] -> suffix = []) /\
    (truthy (body_input req_body) = false -> suffix = []).
Proof.
  destruct (chat_summary svc vectorStore req_body w)
    as (resp & evs & suffix & _ & Htrace & Hhist & Hshape & _ & _ & _ & _ & _ & Hnone).
  exists evs, suffix. repeat (split; [assumption|]).
  intros Hfalsy.
  destruct Hshape as [Hs|(docs & text & user & _ & _ & Huser & _)]; [exact Hs|].
  unfold user_content_of, getInputValue in Huser. rewrite Hfalsy in Huser.
  discriminate Huser.
Qed.

(** X8: what one request costs.  Unless the body is [undefined] or
    [null], the vector store is searched exactly once, for two chunks
    and for the [input] as it came; at most one completion is requested
    and the stored conversation is read at most once; the corpus is
    never loaded again and nothing is embedded again. *)
Theorem chat_calls_per_request (svc : Services) (vectorStore : VectorStore)
    (req_body : JsVal) (w : World) :
  exists evs,
    trace (snd (chat svc vectorStore req_body w)) = trace w ++ evs /\
    filter is_search evs =
      (if nullish req_body then []
       else [EvSimilaritySearch 2 (body_input req_body)]) /\
    length (filter is_completion evs) <= 1 /\
    length (filter is_store_read evs) <= 1 /\
    filter is_startup_call evs = [].
Proof.
  destruct (chat_summary svc vectorStore req_body w)
    as (resp & evs & suffix & _ & Htrace & _ & _ & _ & Hs & Hc & Hr & Hl & _).
  exists evs. auto.
Qed.

(** X9: every failure is logged once and the log entry is the last
    thing the request does; a request answered with status 200 logs
    nothing. *)
Theorem chat_logs_each_failure_once (svc : Services) (vectorStore : VectorStore)
    (req_body : JsVal) (w : World) :
  exists resp evs,
    fst (chat svc vectorStore req_body w) = Return resp /\
    trace (snd (chat svc vectorStore req_body w)) = trace w ++ evs /\
    ((status resp = 200 /\ filter is_console_error evs = []) \/
     (status resp = 500 /\
      exists e, filter is_console_error evs = [EvConsoleError e] /\
                last evs EvGetMessages = EvConsoleError e)).
Proof.
  destruct (chat_summary svc vectorStore req_body w)
    as (resp & evs & suffix & Hfst & Htrace & _ & _ & Hresp & _).
  exists resp, evs. split; [exact Hfst|]. split; [exact Htrace|].
  destruct Hresp as [(Hok & Hlog & _) | (Hfail & _ & Hlog)]; auto.
Qed.

(** X10: a body that is not an object.  For [undefined] and [null]
    the read of [input] throws: the answer is the fallback and no
    service is called.  A primitive or an array is handled like the
    empty object: its [input] is [undefined]. *)
Theorem chat_body_not_object (svc : Services) (vectorStore : VectorStore)
    (req_body : JsVal) (w : World) :
  (nullish req_body = true ->
   chat svc vectorStore req_body w =
     (Return {| status := 500; body := error_body |}, logged TypeError w)) /\
  (nullish req_body = false -> is_object req_body = false ->
   chat svc vectorStore req_body w = chat svc vectorStore (VObj []) w).
Proof.
  split.
  - intros Hnull. unfold chat. rewrite chat_handler_cases.
    destruct req_body; try discriminate Hnull; reflexivity.
  - intros Hnull Hobj. unfold chat, chat_handler, chat_reply.
    destruct req_body; try discriminate Hnull; try discriminate Hobj;
      reflexivity.
Qed.

(** History and calls of a trace that a failed stage leaves alone. *)
Ltac settle_untouched :=
  unfold logged, note; cbn [history trace];
  rewrite ?filter_app; cbn [filter is_completion is_store_write app];
  rewrite ?app_nil_r; auto.

(** X11: when the similarity search fails, the caller gets the
    fallback, no completion is requested and nothing is written to the
    history store. *)
Theorem retrieval_failure_skips_model (svc : Services) (vectorStore : VectorStore)
    (req_body : JsVal) (w : World) :
  (forall w' query,
     is_throw (similaritySearch svc w' vectorStore 2 query) = true) ->
  exists w',
    chat svc vectorStore req_body w =
      (Return {| status := 500; body := error_body |}, w') /\
    history w' = history w /\
    filter is_completion (trace w') = filter is_completion (trace w) /\
    filter is_store_write (trace w') = filter is_store_write (trace w).
Proof.
  intros Hsearch. unfold chat. rewrite chat_handler_cases.
  unfold chat_reply, bind, lift.
  destruct (get_prop_input req_body) as [[_ Hin]|[_ Hin]]; rewrite Hin.
  - eexists. split; [reflexivity|]. settle_untouched.
  - pose proof (conversationChain_stages svc vectorStore
                  (body_input req_body) w) as Hrun.
    cbv zeta in Hrun.
    specialize (Hsearch (note w (EvSimilaritySearch 2 (body_input req_body)))
                        (body_input req_body)).
    destruct (similaritySearch svc _ vectorStore 2 _) as [docs|e];
      [discriminate Hsearch|].
    rewrite Hrun. eexists. split; [reflexivity|]. settle_untouched.
Qed.

(** X12: when the stored conversation cannot be read, the caller
    gets the fallback: no completion is requested and nothing is
    written. *)
Theorem unreadable_history_fails_request (svc : Services)
    (vectorStore : VectorStore) (req_body : JsVal) (w : World) :
  (forall w', read_fault svc w' <> None) ->
  exists w',
    chat svc vectorStore req_body w =
      (Return {| status := 500; body := error_body |}, w') /\
    history w' = history w /\
    filter is_completion (trace w') = filter is_completion (trace w) /\
    filter is_store_write (trace w') = filter is_store_write (trace w).
Proof.
  intros Hread. unfold chat. rewrite chat_handler_cases.
  unfold chat_reply, bind, lift.
  destruct (get_prop_input req_body) as [[_ Hin]|[_ Hin]]; rewrite Hin.
  - eexists. split; [reflexivity|]. settle_untouched.
  - pose proof (conversationChain_stages svc vectorStore
                  (body_input req_body) w) as Hrun.
    cbv zeta in Hrun.
    destruct (similaritySearch svc _ vectorStore 2 _) as [docs|e].
    + match type of Hrun with
      | match read_fault svc ?w2 with _ => _ end =>
          specialize (Hread w2); destruct (read_fault svc w2) as [e|];
            [|contradiction]
      end.
      rewrite Hrun. eexists. split; [reflexivity|]. settle_untouched.
    + rewrite Hrun. eexists. split; [reflexivity|]. settle_untouched.
Qed.

(** X13: when the history store refuses writes, the caller gets the
    fallback even where the model has answered, and the stored
    conversation is what it was. *)
Theorem unwritable_history_fails_request (svc : Services)
    (vectorStore : VectorStore) (req_body : JsVal) (w : World) :
  (forall w' m, append_fault svc w' m <> None) ->
  exists w',
    chat svc vectorStore req_body w =
      (Return {| status := 500; body := error_body |}, w') /\
    history w' = history w.
Proof.
  intros Hwrite. unfold chat. rewrite chat_handler_cases.
  unfold chat_reply, bind, lift.
  destruct (get_prop_input req_body) as [[_ Hin]|[_ Hin]]; rewrite Hin.
  - eexists. split; reflexivity.
  - pose proof (conversationChain_stages svc vectorStore
                  (body_input req_body) w) as Hrun.
    cbv zeta in Hrun.
    destruct (similaritySearch svc _ vectorStore 2 _) as [docs|e];
      [|rewrite Hrun; eexists; split; reflexivity].
    destruct (read_fault svc _) as [e|];
      [rewrite Hrun; eexists; split; reflexivity|].
    cbv zeta in Hrun.
    match type of Hrun with
    | match complete svc ?w3 ?call with _ => _ end =>
        destruct (complete svc w3 call) as [text|e]
    end; [|rewrite Hrun; eexists; split; reflexivity].
    destruct (user_content_of (body_input req_body)) as [user|e];
      [|rewrite Hrun; eexists; split; reflexivity].
    match type of Hrun with
    | match append_fault svc ?w4 ?m with _ => _ end =>
        specialize (Hwrite w4 m); destruct (append_fault svc w4 m) as [e|];
          [|contradiction]
    end.
    rewrite Hrun. eexists. split; reflexivity.
Qed.

(** ** Start-up, stage by stage *)

Lemma splitDocuments_app (svc : Services) (splitter : RecursiveCharacterTextSplitter)
    (a b : list Document) :
  splitDocuments svc splitter (a ++ b) =
    splitDocuments svc splitter a ++ splitDocuments svc splitter b.
Proof. unfold splitDocuments. apply flat_map_app. Qed.

(** The three calls of the module evaluation in order (corpus, stored
    conversation, embedding) and where each failure leaves it. *)
Lemma main_stages (svc : Services) (production : bool) (w : World) :
  let w1 := note w (EvLoad "context.json") in
  let w2 := note w1 EvGetMessages in
  match load_json svc w1 "context.json" with
  | Throw e => main svc production w = (Throw e, w1)
  | Return refs =>
      match read_fault svc w2 with
      | Some e => main svc production w = (Throw e, w2)
      | None =>
          let docs := splitDocuments svc splitter_100_10
                        (refs ++ [history_document (history w)]) in
          let w3 := note w2 (EvEmbedDocuments docs) in
          match embed_fault svc w3 docs with
          | Some e => main svc production w = (Throw e, w3)
          | None =>
              main svc production w =
                (Return {| routes := [{| route_method := "POST";
                                         route_path := "/chat";
                                         route_handler :=
                                           chat svc {| memoryVectors := docs |} |}];
                           listening := if production then None else Some 3000 |},
                 w3)
          end
      end
  end.
Proof.
  cbv zeta.
  unfold main, createReferenceDocs, createChatHistoryDocs, createVecorstore,
    getChatHistory, UpstashRedisChatMessageHistory, history_document,
    splitter_100_10.
  cbn [getMessages]. unfold bind, ret, emit, ask, fault.
  destruct (load_json svc _ "context.json") as [refs|e]; [|reflexivity].
  destruct (read_fault svc _) as [e|]; [reflexivity|].
  cbn [note history trace].
  destruct (embed_fault svc _ _) as [e|]; reflexivity.
Qed.

(** X14: when the corpus cannot be loaded, start-up throws and has
    done nothing else: the stored conversation has not been read and
    nothing has been embedded. *)
Theorem startup_aborts_when_corpus_fails (svc : Services) (production : bool)
    (w : World) :
  (forall w' file, is_throw (load_json svc w' file) = true) ->
  is_throw (fst (main svc production w)) = true /\
  snd (main svc production w) = note w (EvLoad "context.json").
Proof.
  intros Hload. pose proof (main_stages svc production w) as Hmain.
  cbv zeta in Hmain.
  specialize (Hload (note w (EvLoad "context.json")) "context.json").
  destruct (load_json svc _ "context.json") as [refs|e]; [discriminate Hload|].
  rewrite Hmain. split; reflexivity.
Qed.

(** X15: when the stored conversation cannot be read, start-up
    throws before anything is embedded. *)
Theorem startup_aborts_when_history_unreadable (svc : Services)
    (production : bool) (w : World) :
  (forall w', read_fault svc w' <> None) ->
  is_throw (fst (main svc production w)) = true /\
  exists evs,
    trace (snd (main svc production w)) = trace w ++ evs /\
    forall docs, ~ In (EvEmbedDocuments docs) evs.
Proof.
  intros Hread. pose proof (main_stages svc production w) as Hmain.
  cbv zeta in Hmain.
  destruct (load_json svc _ "context.json") as [refs|e].
  - match type of Hmain with
    | match read_fault svc ?w2 with _ => _ end =>
        specialize (Hread w2); destruct (read_fault svc w2) as [e|];
          [|contradiction]
    end.
    rewrite Hmain. split; [reflexivity|].
    exists [EvLoad "context.json"; EvGetMessages]. split.
    + unfold note. cbn [snd trace]. rewrite <- app_assoc. reflexivity.
    + intros docs [Hin|[Hin|[]]]; discriminate Hin.
  - rewrite Hmain. split; [reflexivity|].
    exists [EvLoad "context.json"]. split; [reflexivity|].
    intros docs [Hin|[]]. discriminate Hin.
Qed.

(** X16: start-up only reads.  Whatever the services do, it leaves
    the stored conversation as it was, requests no completion, searches
    nothing and writes nothing. *)
Theorem startup_only_reads (svc : Services) (production : bool) (w : World) :
  history (snd (main svc production w)) = history w /\
  exists evs,
    trace (snd (main svc production w)) = trace w ++ evs /\
    filter is_completion evs = [] /\
    filter is_search evs = [] /\
    filter is_store_write evs = [] /\
    filter is_console_error evs = [].
Proof.
  pose proof (main_stages svc production w) as Hmain. cbv zeta in Hmain.
  destruct (load_json svc _ "context.json") as [refs|e].
  2:{ rewrite Hmain. split; [reflexivity|].
      exists [EvLoad "context.json"]. repeat split. }
  destruct (read_fault svc _) as [e|].
  { rewrite Hmain. split; [reflexivity|].
    exists [EvLoad "context.json"; EvGetMessages].
    split; [unfold note; cbn [snd trace]; rewrite <- app_assoc; reflexivity|].
    repeat split. }
  cbv zeta in Hmain.
  destruct (embed_fault svc _ _) as [e|]; rewrite Hmain;
    (split; [reflexivity|]);
    eexists [EvLoad "context.json"; EvGetMessages; EvEmbedDocuments _];
    (split; [unfold note; cbn [snd trace]; rewrite <- !app_assoc; reflexivity|]);
    repeat split.
Qed.

(** X17: when start-up succeeds, requests to [/chat] are handled over
    a vector store that holds the chunks of the loaded corpus followed
    by the chunks of one document made of the conversation as it was
    stored at that moment; the process listens on port 3000 unless it
    runs in production. *)
Theorem startup_serves_chat_over_snapshot (svc : Services) (production : bool)
    (w w' : World) (app : App) :
  main svc production w = (Return app, w') ->
  exists refs,
    load_json svc (note w (EvLoad "context.json")) "context.json" = Return refs /\
    listening app = (if production then None else Some 3000) /\
    history w' = history w /\
    forall req_body,
      serve (Return app) "/chat" req_body =
        Some (chat svc
                {| memoryVectors :=
                     splitDocuments svc splitter_100_10 refs ++
                     splitDocuments svc splitter_100_10
                       [history_document (history w)] |}
                req_body).
Proof.
  intros Hok. pose proof (main_stages svc production w) as Hmain.
  cbv zeta in Hmain.
  destruct (load_json svc _ "context.json") as [refs|e];
    [|rewrite Hmain in Hok; discriminate Hok].
  destruct (read_fault svc _) as [e|];
    [rewrite Hmain in Hok; discriminate Hok|].
  cbv zeta in Hmain.
  destruct (embed_fault svc _ _) as [e|];
    [rewrite Hmain in Hok; discriminate Hok|].
  rewrite Hmain in Hok. injection Hok as <- <-.
  exists refs. split; [reflexivity|]. split; [reflexivity|].
  split; [reflexivity|].
  intros req_body. rewrite <- splitDocuments_app. reflexivity.
Qed.

(** ** From retrieval to generation *)

(** X18: the completion of a run is requested with the persona
    prompt, the documents the similarity search has just returned as
    [context] and the input as [input]; so no completion is requested
    when the search has failed. *)
Theorem completion_carries_retrieved_context (svc : Services)
    (vectorStore : VectorStore) (v : JsVal) (w : World) :
  exists evs,
    trace (snd (conversationChain svc vectorStore
                  {| ci_input := v; ci_chat_history := None |} w)) =
      trace w ++ evs /\
    forall call, In (EvComplete call) evs ->
      exists docs,
        similaritySearch svc (note w (EvSimilaritySearch 2 v)) vectorStore 2 v
          = Return docs /\
        call = {| call_prompt := prompt;
                  call_values := [("context", VArr (map doc_to_js docs));
                                  ("input", v)] |}.
Proof.
  pose proof (conversationChain_stages svc vectorStore v w) as Hrun.
  cbv zeta in Hrun. unfold generation_world, generation_call in Hrun.
  destruct (similaritySearch svc _ vectorStore 2 v) as [docs|e].
  2:{ rewrite Hrun. exists [EvSimilaritySearch 2 v].
      split; [reflexivity|]. intros call [Hin|[]]. discriminate Hin. }
  destruct (read_fault svc _) as [e|].
  { rewrite Hrun. exists [EvSimilaritySearch 2 v; EvGetMessages].
    split; [settle_world|]. intros call Hin. settle_in. }
  destruct (complete svc _ _) as [text|e].
  2:{ rewrite Hrun.
      eexists [EvSimilaritySearch 2 v; EvGetMessages; EvComplete _].
      split; [settle_world|]. intros call Hin. settle_in. eauto. }
  destruct (user_content_of v) as [user|e].
  2:{ rewrite Hrun.
      eexists [EvSimilaritySearch 2 v; EvGetMessages; EvComplete _].
      split; [settle_world|]. intros call Hin. settle_in. eauto. }
  destruct (append_fault svc _ (HumanMessage user)) as [e|].
  { rewrite Hrun.
    eexists [EvSimilaritySearch 2 v; EvGetMessages; EvComplete _;
             EvAddMessage (HumanMessage user)].
    split; [settle_world|]. intros call Hin. settle_in. eauto. }
  destruct (agent_content_of text) as [agent|e].
  2:{ rewrite Hrun.
      eexists [EvSimilaritySearch 2 v; EvGetMessages; EvComplete _;
               EvAddMessage (HumanMessage user)].
      split; [settle_world|]. intros call Hin. settle_in. eauto. }
  destruct (append_fault svc _ (AIMessage agent)) as [e|]; rewrite Hrun;
    eexists [EvSimilaritySearch 2 v; EvGetMessages; EvComplete _;
             EvAddMessage (HumanMessage user); EvAddMessage (AIMessage agent)];
    (split; [settle_world|]); intros call Hin; settle_in; eauto.
Qed.

End Properties.

(** * Worked examples *)

Local Open Scope list_scope.

(** C1: a request that succeeds is answered with status 200 and a body
    that is not of the shape [{reply: string}]. *)
Lemma chat_success_body_has_no_reply :
  exists resp w',
    chat healthy sample_store (VObj [("input", VStr "你是谁？")]) fresh_world
      = (Return resp, w') /\
    status resp = 200 /\
    body resp = success_body (VStr "我是陪您聊天的助手。") /\
    reply_shape (body resp) = false.
Proof.
  eexists. eexists. split; [vm_compute; reflexivity|].
  repeat split.
Qed.

(** C3 at work: the completion service is down, the request reaches the
    generation step, the caller gets the fallback and nothing is
    stored. *)
Lemma generation_failure_keeps_history_witness :
  (forall w' call, call_prompt call = prompt ->
                   is_throw (complete completion_down w' call) = true) /\
  exists w',
    chat completion_down sample_store (VObj [("input", VStr "你是谁？")]) fresh_world
      = (Return {| status := 500; body := error_body |}, w') /\
    history w' = history fresh_world.
Proof.
  split; [intros w' call _; reflexivity|].
  apply (generation_failure_keeps_history completion_down sample_store).
  intros w' call _. reflexivity.
Defined.

(** C4: with a chat history the retriever rephrases; the completion
    service is down, the retriever throws its error and the vector store
    is never searched. *)
Lemma rewrite_failure_propagates :
  createRetriever completion_down sample_store
    {| ci_input := VStr "今天天气怎么样";
       ci_chat_history := Some [HumanMessage (VStr "早上好")] |} fresh_world
  = (Throw (ServiceFault CompletionService),
     {| history := [];
        trace := [EvComplete {| call_prompt := retrieverPrompt;
                                call_values := [("input", VStr "今天天气怎么样")] |}] |}).
Proof. reflexivity. Qed.

(** C5 at work: the embedding service is down at start-up. *)
Lemma startup_aborts_when_embedding_fails_witness :
  (forall w' docs, embed_fault embedding_down w' docs <> None) /\
  is_throw (fst (main embedding_down false fresh_world)) = true /\
  forall path req_body,
    serve (fst (main embedding_down false fresh_world)) path req_body = None.
Proof.
  split; [intros w' docs; discriminate|].
  apply (startup_aborts_when_embedding_fails embedding_down false fresh_world).
  intros w' docs. discriminate.
Defined.



(** C8: the one chunk of a short knowledge document has a [loc] field
    that its parent does not have. *)
Lemma chunk_metadata_gains_loc :
  let parent := {| pageContent := "老年人陪伴服务介绍";
                   metadata := [("source", VStr "context.json")] |} in
  splitDocuments healthy {| chunkSize := 100; chunkOverlap := 10 |} [parent] =
    [{| pageContent := "老年人陪伴服务介绍";
        metadata := [("source", VStr "context.json");
                     ("loc", VObj [("lines", VObj [("from", VNum 1%Z);
                                                   ("to", VNum 1%Z)])])] |}] /\
  lookup "loc" (metadata parent) = None.
Proof. split; reflexivity. Qed.

(** C8 at work, on the same chunk. *)
Lemma chunk_metadata_is_parent_with_loc_witness :
  let parent := {| pageContent := "老年人陪伴服务介绍";
                   metadata := [("source", VStr "context.json")] |} in
  let chunk :=
    {| pageContent := "老年人陪伴服务介绍";
       metadata := [("source", VStr "context.json");
                    ("loc", VObj [("lines", VObj [("from", VNum 1%Z);
                                                  ("to", VNum 1%Z)])])] |} in
  In chunk (splitDocuments healthy splitter_100_10 [parent]) /\
  exists parent' piece,
    In parent' [parent] /\
    In piece (splitText healthy 100 10 (pageContent parent')) /\
    chunk_of parent' piece chunk.
Proof.
  cbv zeta. split; [left; reflexivity|].
  apply (proj2 (chunk_metadata_is_parent_with_loc healthy splitter_100_10 _)).
  left. reflexivity.
Defined.

(** X1 at work: a greeting, then a question and its answer. *)
Lemma history_content_app_witness :
  let before := [HumanMessage (VStr "早上好")] in
  let after := [AIMessage (VStr "早上好呀。");
                {| _getType := Some "system"; content := VStr "提示" |}] in
  before <> [] /\ after <> [] /\
  history_content (MsgArray (before ++ after)) =
    (history_content (MsgArray before) ++ newline ++
     history_content (MsgArray after))%string.
Proof.
  cbv zeta. split; [discriminate|]. split; [discriminate|].
  apply (history_content_app [HumanMessage (VStr "早上好")]); discriminate.
Defined.

(** X5 at work: a text block, then a block without text and a text
    block. *)
Lemma reply_content_app_witness :
  let a := [VObj [("type", VStr "text"); ("text", VStr "您好，")]] in
  let b := [VObj [("type", VStr "image_url")];
            VObj [("type", VStr "text"); ("text", VStr "我在呢。")]] in
  reply_content (VArr a) = Return (VStr "您好，") /\
  reply_content (VArr b) = Return (VStr "我在呢。") /\
  reply_content (VArr (a ++ b)) = Return (VStr ("您好，" ++ "我在呢。")).
Proof.
  cbv zeta. split; [reflexivity|]. split; [reflexivity|].
  apply (reply_content_app
           [VObj [("type", VStr "text"); ("text", VStr "您好，")]]);
    reflexivity.
Defined.

(** X6 at work: a second turn in a session that has one. *)
Lemma chat_success_stores_the_turn_witness :
  let req_body := VObj [("input", VStr "你是谁？")] in
  let resp := {| status := 200;
                 body := success_body (VStr "我是陪您聊天的助手。") |} in
  let w' := snd (chat healthy sample_store req_body greeted_world) in
  chat healthy sample_store req_body greeted_world = (Return resp, w') /\
  history w' =
    history greeted_world ++
    [HumanMessage (VStr "你是谁？"); AIMessage (VStr "我是陪您聊天的助手。")] /\
  exists docs text user agent c,
    similaritySearch healthy
      (note greeted_world (EvSimilaritySearch 2 (body_input req_body)))
      sample_store 2 (body_input req_body) = Return docs /\
    complete healthy (generation_world greeted_world docs (body_input req_body))
      (generation_call docs (body_input req_body)) = Return text /\
    truthy (body_input req_body) = true /\
    user_content_of (body_input req_body) = Return user /\
    agent_content_of text = Return agent /\
    history w' = history greeted_world ++ [HumanMessage user; AIMessage agent] /\
    reply_content text = Return c /\
    body resp = success_body c /\
    (forall s, body_input req_body = VStr s -> user = VStr s) /\
    (forall s, text = VStr s -> agent = VStr s /\ c = VStr s) /\
    (forall elems, text = VArr elems -> agent = VUndefined).
Proof.
  cbv zeta. split; [reflexivity|]. split; [reflexivity|].
  apply (chat_success_stores_the_turn healthy sample_store
           (VObj [("input", VStr "你是谁？")]) greeted_world);
    reflexivity.
Defined.

(** X11 at work: the embedding service is down when the query is to
    be embedded. *)
Lemma retrieval_failure_skips_model_witness :
  let req_body := VObj [("input", VStr "你是谁？")] in
  (forall w' query,
     is_throw (similaritySearch embedding_down w' sample_store 2 query) = true) /\
  exists w',
    chat embedding_down sample_store req_body greeted_world =
      (Return {| status := 500; body := error_body |}, w') /\
    history w' = history greeted_world /\
    filter is_completion (trace w') = filter is_completion (trace greeted_world) /\
    filter is_store_write (trace w') = filter is_store_write (trace greeted_world).
Proof.
  cbv zeta. split; [intros w' query; reflexivity|].
  apply (retrieval_failure_skips_model embedding_down sample_store).
  intros w' query. reflexivity.
Defined.

(** X12 at work: the history store is down. *)
Lemma unreadable_history_fails_request_witness :
  let req_body := VObj [("input", VStr "你是谁？")] in
  (forall w', read_fault history_down w' <> None) /\
  exists w',
    chat history_down sample_store req_body greeted_world =
      (Return {| status := 500; body := error_body |}, w') /\
    history w' = history greeted_world /\
    filter is_completion (trace w') = filter is_completion (trace greeted_world) /\
    filter is_store_write (trace w') = filter is_store_write (trace greeted_world).
Proof.
  cbv zeta. split; [intros w'; discriminate|].
  apply (unreadable_history_fails_request history_down sample_store).
  intros w'. discriminate.
Defined.

(** X13 at work: the model answers and the store refuses the turn. *)
Lemma unwritable_history_fails_request_witness :
  let req_body := VObj [("input", VStr "你是谁？")] in
  (forall w' m, append_fault history_read_only w' m <> None) /\
  exists w',
    chat history_read_only sample_store req_body greeted_world =
      (Return {| status := 500; body := error_body |}, w') /\
    history w' = history greeted_world.
Proof.
  cbv zeta. split; [intros w' m; discriminate|].
  apply (unwritable_history_fails_request history_read_only sample_store).
  intros w' m. discriminate.
Defined.

(** X14 at work: [context.json] is missing. *)
Lemma startup_aborts_when_corpus_fails_witness :
  (forall w' file, is_throw (load_json corpus_missing w' file) = true) /\
  is_throw (fst (main corpus_missing false greeted_world)) = true /\
  snd (main corpus_missing false greeted_world) =
    note greeted_world (EvLoad "context.json").
Proof.
  split; [intros w' file; reflexivity|].
  apply (startup_aborts_when_corpus_fails corpus_missing false greeted_world).
  intros w' file. reflexivity.
Defined.

(** X15 at work: the history store is down at start-up. *)
Lemma startup_aborts_when_history_unreadable_witness :
  (forall w', read_fault history_down w' <> None) /\
  is_throw (fst (main history_down false greeted_world)) = true /\
  exists evs,
    trace (snd (main history_down false greeted_world)) =
      trace greeted_world ++ evs /\
    forall docs, ~ In (EvEmbedDocuments docs) evs.
Proof.
  split; [intros w'; discriminate|].
  apply (startup_aborts_when_history_unreadable history_down false greeted_world).
  intros w'. discriminate.
Defined.

(** X17 at work: start-up in a session that has one turn. *)
Lemma startup_serves_chat_over_snapshot_witness :
  let started := main healthy false greeted_world in
  exists app,
    started = (Return app, snd started) /\
    exists refs,
      load_json healthy (note greeted_world (EvLoad "context.json")) "context.json"
        = Return refs /\
      listening app = Some 3000 /\
      history (snd started) = history greeted_world /\
      forall req_body,
        serve (Return app) "/chat" req_body =
          Some (chat healthy
                  {| memoryVectors :=
                       splitDocuments healthy splitter_100_10 refs ++
                       splitDocuments healthy splitter_100_10
                         [history_document (history greeted_world)] |}
                  req_body).
Proof.
  cbv zeta. eexists. split; [reflexivity|].
  eapply (startup_serves_chat_over_snapshot healthy false greeted_world).
  reflexivity.
Defined.
